(** * A shallow embedding of the MCP chatbot client (mcp-client/mcp_client.py
    and mcp-client/main.py) and proofs of its conversation-handling
    properties. *)

From Stdlib Require Import String List ZArith Bool Lia.
Import ListNotations.
Open Scope string_scope.
Open Scope list_scope.
Set Warnings "-register-all".

(** ** Python values *)

(** JSON-compatible Python values: the messages of the transcript are Python
    dicts built from these, and the durable files hold them. A dict is an
    association list in insertion order, as a Python dict is. *)
Inductive Json : Type :=
| JNull
| JBool (b : bool)
| JNum (z : Z)
| JStr (s : string)
| JList (l : list Json)
| JObj (kvs : list (string * Json)).

(** [d.get(k)] / [k in d] *)
Fixpoint dget {A} (k : string) (d : list (string * A)) : option A :=
  match d with
  | [] => None
  | (k', v) :: d' => if String.eqb k k' then Some v else dget k d'
  end.

(** [d[k] = v]: an existing key keeps its position, a new key goes last. *)
Fixpoint dset {A} (k : string) (v : A) (d : list (string * A)) : list (string * A) :=
  match d with
  | [] => [(k, v)]
  | (k', v') :: d' => if String.eqb k k' then (k', v) :: d' else (k', v') :: dset k v d'
  end.

(** [del d[k]] (the caller has checked [k in d]). *)
Fixpoint ddel {A} (k : string) (d : list (string * A)) : list (string * A) :=
  match d with
  | [] => []
  | (k', v') :: d' => if String.eqb k k' then d' else (k', v') :: ddel k d'
  end.

(** Python exceptions raised on the paths we model. *)
Inductive PyExc : Type :=
| Exception_ (msg : string)          (* a plain [Exception(msg)] *)
| OSError (msg : string)             (* file-system failure of [open]/[write] *)
| KeyError (key : string)
| TypeError (msg : string)
| FileNotFoundError (msg : string)
| HTTPException (status_code : Z) (detail : string).

(** [str(e)] *)
Definition exc_str (e : PyExc) : string :=
  match e with
  | Exception_ m | OSError m | TypeError m | FileNotFoundError m => m
  | KeyError k => "'" ++ k ++ "'"
  | HTTPException _ d => d
  end.

(** ** The exception-and-state monad

    A computation either returns, raises a Python exception (the mutations
    made before the raise stay in the state, as in Python), or runs out of
    the fuel bounding the [while True] loop of [process_query]. *)
Inductive res (A : Type) : Type :=
| ROk (a : A)
| RExc (e : PyExc)
| RFuel.
Arguments ROk {A} a.
Arguments RExc {A} e.
Arguments RFuel {A}.

Section Monad.
Variable St : Type.

Definition M (A : Type) : Type := St -> res A * St.

Definition ret {A} (a : A) : M A := fun st => (ROk a, st).

Definition bind {A B} (m : M A) (k : A -> M B) : M B :=
  fun st =>
    match m st with
    | (ROk a, st') => k a st'
    | (RExc e, st') => (RExc e, st')
    | (RFuel, st') => (RFuel, st')
    end.

Definition raise {A} (e : PyExc) : M A := fun st => (RExc e, st).

(** [try: m except Exception as e: h(e)] *)
Definition try_except {A} (m : M A) (h : PyExc -> M A) : M A :=
  fun st =>
    match m st with
    | (RExc e, st') => h e st'
    | r => r
    end.

Definition get : M St := fun st => (ROk st, st).
Definition modify (f : St -> St) : M unit := fun st => (ROk tt, f st).
End Monad.

Arguments ret {St A} a _.
Arguments bind {St A B} m k _.
Arguments raise {St A} e _.
Arguments try_except {St A} m h _.
Arguments get {St} _.
Arguments modify {St} f _.

Notation "x <- m ;; k" := (bind m (fun x => k))
  (at level 61, m at next level, right associativity).
Notation "m ;; k" := (bind m (fun _ => k))
  (at level 61, right associativity).

(** ** The data of the program *)

(** A tool call as the OpenAI response carries it. *)
Record ToolCall := mkToolCall {
  tc_id : string;
  tc_name : string;
  tc_arguments : string      (* the JSON-encoded argument string *)
}.

(** [response.choices[0].message]: [content] may be [None]; [tool_calls]
    is [None] or a list, both falsy when empty. *)
Record AssistantMessage := mkAssistantMessage {
  am_content : option string;
  am_tool_calls : list ToolCall
}.

(** The outcome of [self.llm.chat.completions.create(...)]. *)
Inductive LLMOutcome :=
| LLMOk (r : AssistantMessage)
| LLMFail (e : string).          (* the transport error, as [str(e)] *)

(** Calls to the outside world, in the order they are made. *)
Inductive Event :=
| EvLLM (messages tools : list Json)      (* a chat-completions request *)
| EvTool (name : string) (args : Json).   (* an MCP [session.call_tool] *)

(** The attributes of [MCPClient] that the claims touch. *)
Record Client := mkClient {
  messages : list Json;
  tools : list Json;
  conversation_id : string;
  created_at : Json
}.

(** The whole state: the one [MCPClient] of the server, the file system
    (path -> JSON document), a script of I/O faults for the successive file
    writes ([Some msg] makes that write raise [OSError msg]; an exhausted
    script means writes succeed), the trace of external calls,
    [app.state.conversations], and which entry of it the list object
    [client.messages] is (the two are the same Python list after
    [app.state.client.messages = app.state.conversations[convo_id]]). *)
Record St := mkSt {
  client : Client;
  fs : list (string * Json);
  io_faults : list (option string);
  trace : list Event;
  conversations : list (string * list Json);
  alias : option string;
  uuid_ctr : nat
}.

Definition set_client (c : Client) (st : St) : St :=
  mkSt c (fs st) (io_faults st) (trace st) (conversations st) (alias st) (uuid_ctr st).
Definition set_fs (f : list (string * Json)) (st : St) : St :=
  mkSt (client st) f (io_faults st) (trace st) (conversations st) (alias st) (uuid_ctr st).
Definition set_io_faults (l : list (option string)) (st : St) : St :=
  mkSt (client st) (fs st) l (trace st) (conversations st) (alias st) (uuid_ctr st).
Definition add_event (ev : Event) (st : St) : St :=
  mkSt (client st) (fs st) (io_faults st) (trace st ++ [ev]) (conversations st) (alias st) (uuid_ctr st).
Definition set_conversations (c : list (string * list Json)) (st : St) : St :=
  mkSt (client st) (fs st) (io_faults st) (trace st) c (alias st) (uuid_ctr st).
Definition set_alias (a : option string) (st : St) : St :=
  mkSt (client st) (fs st) (io_faults st) (trace st) (conversations st) a (uuid_ctr st).
Definition set_uuid_ctr (n : nat) (st : St) : St :=
  mkSt (client st) (fs st) (io_faults st) (trace st) (conversations st) (alias st) n.

Definition with_messages (ms : list Json) (c : Client) : Client :=
  mkClient ms (tools c) (conversation_id c) (created_at c).
Definition with_conversation_id (cid : string) (c : Client) : Client :=
  mkClient (messages c) (tools c) cid (created_at c).
Definition with_created_at (t : Json) (c : Client) : Client :=
  mkClient (messages c) (tools c) (conversation_id c) t.

(** [self.messages = ms]: rebinding the attribute to another list object,
    which is no longer any entry of [app.state.conversations]. *)
Definition rebind_messages (ms : list Json) (st : St) : St :=
  set_alias None (set_client (with_messages ms (client st)) st).

(** [self.messages.append(m)]: an in-place mutation, seen through every
    name of the list object, hence also in the aliased conversation. *)
Definition append_messages_st (ms : list Json) (st : St) : St :=
  let ms' := messages (client st) ++ ms in
  let st1 := set_client (with_messages ms' (client st)) st in
  match alias st with
  | Some k => set_conversations (dset k ms' (conversations st)) st1
  | None => st1
  end.

Definition append_message (m : Json) : M St unit :=
  modify (append_messages_st [m]).

(** ** mcp_client.py *)

(** What an MCP tool call gives back. *)
Inductive ToolOutcome (R : Type) :=
| ToolOk (r : R)
| ToolRaise (e : string).        (* the [str] of the exception raised *)
Arguments ToolOk {R} r.
Arguments ToolRaise {R} e.

(** The external collaborators of the client and the server: the
    chat-completions endpoint as a function of the request it receives; MCP
    [session.call_tool]; [json.loads] on an argument string ([None] is a
    [JSONDecodeError]); [str(result.content)] (or [str(result)]) of a tool
    result; [datetime.now().isoformat()]; [str(uuid.uuid4())] for the n-th
    fresh id; [json.dumps(result)] of a tool result ([None] is the
    [TypeError] of an object that is not JSON serializable); [str(v)] of a
    non-string JSON value; the tool list of the MCP session; the JSON
    encoding FastAPI gives a tool result in a response. *)
Class Collaborators := {
  ToolResult : Type;
  llm : list Json -> list Json -> LLMOutcome;
  session_call_tool : string -> Json -> ToolOutcome ToolResult;
  json_loads : string -> option Json;
  render_result : ToolResult -> string;
  now_iso : string;
  new_uuid : nat -> string;
  json_dumps_result : ToolResult -> option string;
  py_repr : Json -> string;
  mcp_tool_list : list Json;
  encode_result : ToolResult -> Json
}.

Section Client.
Context `{Collaborators}.

(** [get_conversation_path] (the directory is created on demand). *)
Definition get_conversation_path (cid : string) : string :=
  "conversations/" ++ cid ++ ".json".

(** [open(path, "w")] followed by [json.dump]: the file holds the JSON
    document (a later [json.load] gives the same value back). *)
Definition write_file (path : string) (data : Json) : M St unit :=
  fun st =>
    match io_faults st with
    | Some m :: rest => (RExc (OSError m), set_io_faults rest st)
    | None :: rest => (ROk tt, set_io_faults rest (set_fs (dset path data (fs st)) st))
    | [] => (ROk tt, set_fs (dset path data (fs st)) st)
    end.

(** The content items of a list content. A plain JSON value has none of the
    [to_dict], [dict] or [model_dump] attributes, so it is appended as is. *)
Definition serialize_item (j : Json) : Json := j.

(** The [content] of a serializable message: a string is kept, a list is
    copied item by item, anything else (e.g. [None]) stays the initial []. *)
Definition serialize_content (c : Json) : Json :=
  match c with
  | JStr s => JStr s
  | JList items => JList (map serialize_item items)
  | _ => JList []
  end.

(** One iteration of the loop of [log_conversation]: only [role] and
    [content] are copied. *)
Definition serialize_message (m : Json) : PyExc + Json :=
  match m with
  | JObj kvs =>
      match dget "role" kvs with
      | None => inl (KeyError "role")
      | Some r =>
          match dget "content" kvs with
          | None => inl (KeyError "content")
          | Some c => inr (JObj [("role", r); ("content", serialize_content c)])
          end
      end
  | _ => inl (TypeError "indices must be integers")
  end.

Fixpoint serialize_conversation (conv : list Json) : PyExc + list Json :=
  match conv with
  | [] => inr []
  | m :: conv' =>
      match serialize_message m with
      | inl e => inl e
      | inr sm =>
          match serialize_conversation conv' with
          | inl e => inl e
          | inr sms => inr (sm :: sms)
          end
      end
  end.

(** The record [data_to_save]. *)
Definition conversation_record (c : Client) (sms : list Json) : Json :=
  JObj [("id", JStr (conversation_id c)); ("created_at", created_at c);
        ("messages", JList sms)].

(** [MCPClient.log_conversation] *)
Definition log_conversation (conv : list Json) : M St unit :=
  st <- get ;;
  let path := get_conversation_path (conversation_id (client st)) in
  match serialize_conversation conv with
  | inl e => raise e
  | inr sms => write_file path (conversation_record (client st) sms)
  end.

(** [await self.log_conversation(self.messages)] *)
Definition log_self : M St unit :=
  st <- get ;; log_conversation (messages (client st)).

(** [MCPClient.load_conversation] *)
Definition load_conversation (cid : string) : M St unit :=
  modify (fun st => set_client (with_conversation_id cid (client st)) st) ;;
  st <- get ;;
  let path := get_conversation_path (conversation_id (client st)) in
  match dget path (fs st) with
  | None => raise (FileNotFoundError ("Conversation " ++ cid ++ " not found."))
  | Some (JObj data) =>
      match dget "messages" data with
      | Some (JList ms) =>
          let t := match dget "created_at" data with
                   | Some t => t
                   | None => JStr now_iso
                   end in
          modify (fun st => let st1 := rebind_messages ms st in
                            set_client (with_created_at t (client st1)) st1)
      | None =>
          let t := match dget "created_at" data with
                   | Some t => t
                   | None => JStr now_iso
                   end in
          modify (fun st => let st1 := rebind_messages [] st in
                            set_client (with_created_at t (client st1)) st1)
      | Some _ => raise (TypeError "messages is not a list")
      end
  | Some _ => raise (TypeError "'data' has no attribute 'get'")
  end.

(** [MCPClient.call_llm]: the request is [self.messages] and [self.tools]. *)
Definition call_llm : M St AssistantMessage :=
  fun st =>
    let ms := messages (client st) in
    let ts := tools (client st) in
    let st' := add_event (EvLLM ms ts) st in
    match llm ms ts with
    | LLMOk r => (ROk r, st')
    | LLMFail e => (RExc (Exception_ ("Failed to call LLM: " ++ e)), st')
    end.

(** [await self.session.call_tool(name, args)] *)
Definition session_call (name : string) (args : Json) : M St ToolResult :=
  fun st =>
    let st' := add_event (EvTool name args) st in
    match session_call_tool name args with
    | ToolOk r => (ROk r, st')
    | ToolRaise e => (RExc (Exception_ e), st')
    end.

(** [MCPClient.call_tool] *)
Definition client_call_tool (name : string) (args : Json) : M St ToolResult :=
  try_except (session_call name args)
    (fun e => raise (Exception_ ("Failed to call tool: " ++ exc_str e))).

(** The dicts [process_query] builds. *)
Definition tool_call_json (tc : ToolCall) : Json :=
  JObj [("id", JStr (tc_id tc)); ("type", JStr "function");
        ("function", JObj [("name", JStr (tc_name tc));
                           ("arguments", JStr (tc_arguments tc))])].

Definition opt_content (c : option string) : Json :=
  match c with Some s => JStr s | None => JNull end.

Definition assistant_tool_msg (am : AssistantMessage) : Json :=
  JObj [("role", JStr "assistant"); ("content", opt_content (am_content am));
        ("tool_calls", JList (map tool_call_json (am_tool_calls am)))].

(** [assistant_message.content or ""] *)
Definition assistant_text_msg (am : AssistantMessage) : Json :=
  JObj [("role", JStr "assistant");
        ("content", JStr (match am_content am with Some s => s | None => "" end))].

Definition tool_msg (id content : string) : Json :=
  JObj [("role", JStr "tool"); ("tool_call_id", JStr id); ("content", JStr content)].

Definition user_msg (q : string) : Json :=
  JObj [("role", JStr "user"); ("content", JStr q)].

(** The fixed instruction text (abbreviated here: its wording plays no role
    in the properties below). *)
Definition system_prompt : string :=
  "Process a query using OpenAI and available tools, returning all messages at the end ... You are an expert AI assistant and QA engineer.".

Definition system_msg : Json :=
  JObj [("role", JStr "system"); ("content", JStr system_prompt)].

(** The arguments of a tool call: [json.loads], or [{}] on a
    [JSONDecodeError]. *)
Definition tool_args_of (tc : ToolCall) : Json :=
  match json_loads (tc_arguments tc) with
  | Some j => j
  | None => JObj []
  end.

(** One iteration of [for tool_call in assistant_message.tool_calls];
    [msgs] is the local list [messages] of [process_query]. The [try]
    covers the call, the append and the log of the success branch. *)
Definition run_tool_call (tc : ToolCall) (msgs : list Json) : M St (list Json) :=
  let tool_args := tool_args_of tc in
  try_except
    (result <- session_call (tc_name tc) tool_args ;;
     let m := tool_msg (tc_id tc) (render_result result) in
     append_message m ;; log_self ;; ret (msgs ++ [m]))
    (fun e =>
       let m := tool_msg (tc_id tc) ("Tool execution failed: " ++ exc_str e) in
       append_message m ;; log_self ;; ret (msgs ++ [m])).

Fixpoint run_tool_calls (tcs : list ToolCall) (msgs : list Json) : M St (list Json) :=
  match tcs with
  | [] => ret msgs
  | tc :: rest => msgs' <- run_tool_call tc msgs ;; run_tool_calls rest msgs'
  end.

(** The [while True] loop, bounded by [fuel]. *)
Fixpoint turn_loop (fuel : nat) (msgs : list Json) : M St (list Json) :=
  match fuel with
  | O => fun st => (RFuel, st)
  | S f =>
      am <- call_llm ;;
      match am_tool_calls am with
      | [] =>
          let a := assistant_text_msg am in
          append_message a ;; log_self ;; ret (msgs ++ [a])
      | _ :: _ =>
          let a := assistant_tool_msg am in
          append_message a ;; log_self ;;
          msgs' <- run_tool_calls (am_tool_calls am) (msgs ++ [a]) ;;
          turn_loop f msgs'
      end
  end.

(** [MCPClient.process_query] (its outer [try] re-raises unchanged). *)
Definition process_query (fuel : nat) (query : string) : M St (list Json) :=
  let user_message := user_msg query in
  append_message user_message ;;
  log_self ;;
  turn_loop fuel [system_msg; user_message].

(** ** main.py *)

Definition py_str (j : Json) : string :=
  match j with JStr s => s | _ => py_repr j end.

Definition fresh_uuid : M St string :=
  fun st => (ROk (new_uuid (uuid_ctr st)), set_uuid_ctr (S (uuid_ctr st)) st).

(** [request.conversation_id or str(uuid.uuid4())] *)
Definition convo_id_of (cid : string) : M St string :=
  if String.eqb cid "" then fresh_uuid else ret cid.

(** [except Exception as e: raise HTTPException(status_code=500, detail=str(e))] *)
Definition http500 {A} (m : M St A) : M St A :=
  try_except m (fun e => raise (HTTPException 500 (exc_str e))).

(** [POST /query] *)
Definition http_process_query (fuel : nat) (query cid : string) : M St Json :=
  http500
    (convo_id <- convo_id_of cid ;;
     st <- get ;;
     match dget convo_id (conversations st) with
     | Some ms =>
         (* the client's attribute becomes the stored list object itself *)
         modify (fun st => set_alias (Some convo_id)
                             (set_client (with_messages ms (client st)) st))
     | None => modify (rebind_messages [])
     end ;;
     msgs <- process_query fuel query ;;
     modify (fun st => set_alias (Some convo_id)
                         (set_conversations
                            (dset convo_id (messages (client st)) (conversations st)) st)) ;;
     ret (JObj [("messages", JList msgs); ("conversation_id", JStr convo_id)])).

(** [d[k]] on a dict given as an association list *)
Definition item {A} (d : list (string * A)) (k : string) : M St A :=
  match dget k d with Some v => ret v | None => raise (KeyError k) end.

Definition upload_notice (filename : Json) : Json :=
  JObj [("role", JStr "user");
        ("content", JStr ("📎 Uploaded file: `" ++ py_str filename ++ "`"))].

Definition upload_result_msg (dumped : string) : Json :=
  JObj [("role", JStr "user");
        ("content", JList [JObj [("type", JStr "tool_result");
                                 ("content", JList [JObj [("text", JStr dumped)]])]])].

(** [app.state.conversations[convo_id].extend(ms)], creating the entry
    first when missing; the client sees the change when its attribute is
    that same list. *)
Definition extend_conversation (k : string) (ms : list Json) (st : St) : St :=
  let old := match dget k (conversations st) with Some l => l | None => [] end in
  let st1 := set_conversations (dset k (old ++ ms) (conversations st)) st in
  if match alias st with Some a => String.eqb a k | None => false end
  then set_client (with_messages (old ++ ms) (client st)) st1
  else st1.

(** [POST /file] *)
Definition handle_file_upload (file : list (string * Json)) (cid : string) : M St Json :=
  http500
    (convo_id <- convo_id_of cid ;;
     filename <- item file "filename" ;;
     content <- item file "content" ;;
     let ty := match dget "type" file with
               | Some t => t
               | None => JStr "application/octet-stream"
               end in
     let args := JObj [("filename", filename); ("content", content); ("type", ty)] in
     result <- client_call_tool "read_uploaded_file" args ;;
     dumped <- (match json_dumps_result result with
                | Some s => ret s
                | None => raise (TypeError "Object of type CallToolResult is not JSON serializable")
                end) ;;
     let msgs := [upload_notice filename; upload_result_msg dumped] in
     modify (extend_conversation convo_id msgs) ;;
     st <- get ;;
     let stored := match dget convo_id (conversations st) with Some l => l | None => [] end in
     ret (JObj [("messages", JList stored); ("conversation_id", JStr convo_id)])).

(** [GET /tools] *)
Definition get_available_tools : M St Json :=
  ret (JObj [("tools", JList mcp_tool_list)]).

(** [GET /conversations] *)
Definition list_conversations : M St Json :=
  st <- get ;; ret (JObj [("conversations", JList (map (fun kv => JStr (fst kv)) (conversations st)))]).

(** [GET /conversations/{conversation_id}] *)
Definition get_conversation (cid : string) : M St Json :=
  st <- get ;;
  match dget cid (conversations st) with
  | None => raise (HTTPException 404 "Conversation not found")
  | Some ms => ret (JObj [("id", JStr cid); ("messages", JList ms)])
  end.

(** [POST /conversations/delete]. After [del], the client's attribute (if it
    was that list) is no longer an entry of the dict. *)
Definition delete_conversation_post (cid : string) : M St Json :=
  st <- get ;;
  match dget cid (conversations st) with
  | Some _ =>
      modify (fun st =>
                let a := match alias st with
                         | Some k => if String.eqb k cid then None else Some k
                         | None => None
                         end in
                set_alias a (set_conversations (ddel cid (conversations st)) st)) ;;
      ret (JObj [("detail", JStr ("Conversation " ++ cid ++ " deleted"))])
  | None => raise (HTTPException 404 "Conversation not found")
  end.

(** [POST /tool] *)
Definition http_call_tool (name : string) (args : Json) : M St Json :=
  http500 (result <- client_call_tool name args ;; ret (JObj [("result", encode_result result)])).

(** The requests the server answers. *)
Inductive HttpRequest :=
| PostQuery (query cid : string)
| PostFile (file : list (string * Json)) (cid : string)
| GetTools
| GetConversations
| GetConversation (cid : string)
| PostDelete (cid : string)
| PostTool (name : string) (args : Json).

Definition handle (fuel : nat) (r : HttpRequest) : M St Json :=
  match r with
  | PostQuery q cid => http_process_query fuel q cid
  | PostFile f cid => handle_file_upload f cid
  | GetTools => get_available_tools
  | GetConversations => list_conversations
  | GetConversation cid => get_conversation cid
  | PostDelete cid => delete_conversation_post cid
  | PostTool n a => http_call_tool n a
  end.

(** Requests served one after the other; each one's outcome goes back to
    its caller and the state carries over. *)
Fixpoint serve (fuel : nat) (rs : list HttpRequest) (st : St) : list (res Json) * St :=
  match rs with
  | [] => ([], st)
  | r :: rs' =>
      let (o, st1) := handle fuel r st in
      let (os, st2) := serve fuel rs' st1 in
      (o :: os, st2)
  end.

End Client.

(** ** Connecting to the MCP server ([MCPClient.connect_to_server]) *)

(** [str.endswith] *)
Definition endswith (s suffix : string) : bool :=
  let n := String.length s in
  let m := String.length suffix in
  (m <=? n)%nat && String.eqb (substring (n - m) m s) suffix.

(** The [Tool] objects of [session.list_tools()]. *)
Record McpTool := mkMcpTool {
  mt_name : string;
  mt_description : Json;
  mt_inputSchema : Json
}.

Inductive ListToolsOutcome :=
| ListOk (ts : list McpTool)
| ListRaise (e : string).

Record StdioServerParameters := mkStdioServerParameters {
  sp_command : string;
  sp_args : list string;
  sp_type : string;
  sp_env : option (list (string * string))
}.

(** The parameters [connect_to_server] builds; none depends on its
    argument. (The Python literal ["PATH\\jira-mcp"] is the string
    [PATH\jira-mcp].) *)
Definition jira_server_params : StdioServerParameters :=
  mkStdioServerParameters "uv" ["--directory"; "PATH\jira-mcp"; "run"; "server.py"] "stdio" None.

(** [{"type": "function", "function": {...}}] for one tool. *)
Definition format_tool (t : McpTool) : Json :=
  JObj [("type", JStr "function");
        ("function", JObj [("name", JStr (mt_name t));
                           ("description", mt_description t);
                           ("parameters", mt_inputSchema t)])].

Definition with_tools (ts : list Json) (c : Client) : Client :=
  mkClient (messages c) ts (conversation_id c) (created_at c).

Section Connect.
(** Starting the server process and the session ([stdio_client],
    [ClientSession], [session.initialize()]): [None] when the session is up,
    [Some msg] for the exception raised. *)
Variable open_session : StdioServerParameters -> option string.
(** The answer of [session.list_tools()]. *)
Variable list_tools : ListToolsOutcome.

(** [MCPClient.get_mcp_tools] *)
Definition get_mcp_tools : M St (list McpTool) :=
  try_except
    (match list_tools with
     | ListOk ts => ret ts
     | ListRaise e => raise (Exception_ e)
     end)
    (fun e => raise (Exception_ ("Failed to get tools: " ++ exc_str e))).

(** [MCPClient.connect_to_server]. The [ValueError] of the suffix check is
    caught at once by the [except] below, which keeps only its message; it
    is raised here as a plain exception with that message. *)
Definition connect_to_server (server_script_path : string) : M St bool :=
  try_except
    (let is_python := endswith server_script_path ".py" in
     let is_js := endswith server_script_path ".js" in
     if negb (is_python || is_js)
     then raise (Exception_ "Server script must be a .py or .js file")
     else
       match open_session jira_server_params with
       | Some e => raise (Exception_ e)
       | None =>
           mcp_tools <- get_mcp_tools ;;
           modify (fun st => set_client (with_tools (map format_tool mcp_tools) (client st)) st) ;;
           ret true
       end)
    (fun e => raise (Exception_ ("Failed to connect to server: " ++ exc_str e))).
End Connect.

(** A tool list for the examples. *)
Definition jira_tools : list McpTool :=
  [mkMcpTool "fetch_sprint_issues" (JStr "Issues of a sprint") (JObj [("type", JStr "object")])].

(** ** The tool-message protocol of the chat-completions API *)

Definition role_of (m : Json) : string :=
  match m with
  | JObj kvs => match dget "role" kvs with Some (JStr r) => r | _ => "" end
  | _ => ""
  end.

Definition tool_call_id_of (m : Json) : option string :=
  match m with
  | JObj kvs => match dget "tool_call_id" kvs with Some (JStr i) => Some i | _ => None end
  | _ => None
  end.

Definition request_id (tc : Json) : string :=
  match tc with
  | JObj kvs => match dget "id" kvs with Some (JStr i) => i | _ => "" end
  | _ => ""
  end.

(** The ids of the tool calls an assistant message requests, in order. *)
Definition request_ids (m : Json) : list string :=
  match m with
  | JObj kvs => match dget "tool_calls" kvs with Some (JList tcs) => map request_id tcs | _ => [] end
  | _ => []
  end.

(** Walks a transcript with the ids still to be answered: a tool message
    must answer the first of them; any other message needs none pending, and
    an assistant message then opens its own requests. [None] is a
    violation; [Some p] leaves [p] pending at the end. *)
Fixpoint answered_from (pending : list string) (ms : list Json) : option (list string) :=
  match ms with
  | [] => Some pending
  | m :: ms' =>
      if String.eqb (role_of m) "tool" then
        match pending, tool_call_id_of m with
        | p :: ps, Some i => if String.eqb p i then answered_from ps ms' else None
        | _, _ => None
        end
      else
        match pending with
        | [] => answered_from
                  (if String.eqb (role_of m) "assistant" then request_ids m else []) ms'
        | _ :: _ => None
        end
  end.


(** ** Observations on runs *)

(** A relation between the states before and after a computation, whatever
    it returns. *)
Definition preserves {S : Type} (P : S -> S -> Prop) {A} (m : M S A) : Prop :=
  forall st, P st (snd (m st)).

Section Observations.
Context `{Collaborators}.

(** The history can be written out ([log_conversation] finds [role] and
    [content] in every message). *)
Definition serializable (ms : list Json) : bool :=
  match serialize_conversation ms with inr _ => true | inl _ => false end.

(** The store works: no write fault is scheduled and the history serializes. *)
Definition good (st : St) : Prop :=
  io_faults st = [] /\ serializable (messages (client st)) = true.

(** The state after a successful [log_conversation(self.messages)]. *)
Definition persist (st : St) : St :=
  match serialize_conversation (messages (client st)) with
  | inr sms =>
      set_fs (dset (get_conversation_path (conversation_id (client st)))
                   (conversation_record (client st) sms) (fs st)) st
  | inl _ => st
  end.

(** The text of the tool message answering a call, and that message. *)
Definition tool_text (o : ToolOutcome ToolResult) : string :=
  match o with
  | ToolOk r => render_result r
  | ToolRaise e => "Tool execution failed: " ++ e
  end.

Definition tool_answer (tc : ToolCall) : Json :=
  tool_msg (tc_id tc) (tool_text (session_call_tool (tc_name tc) (tool_args_of tc))).

Definition tool_event (tc : ToolCall) : Event := EvTool (tc_name tc) (tool_args_of tc).

Definition same_trace (s s' : St) : Prop := trace s' = trace s.

(** The trace of external calls only grows. *)
Definition trace_grows (s s' : St) : Prop := exists l, trace s' = trace s ++ l.


(** The file at the client's path holds exactly what [log_conversation]
    writes for the current [self.messages]. *)
Definition persisted (st : St) : Prop :=
  exists sms,
    serialize_conversation (messages (client st)) = inr sms /\
    dget (get_conversation_path (conversation_id (client st))) (fs st)
      = Some (conversation_record (client st) sms).

(** The client keeps its [conversation_id], and no file other than the one
    at its path changes. *)
Definition durable_frame (s s' : St) : Prop :=
  conversation_id (client s') = conversation_id (client s) /\
  forall p, p <> get_conversation_path (conversation_id (client s)) ->
            dget p (fs s') = dget p (fs s).

End Observations.

(** ** Concrete collaborators for the examples *)

Definition last_role (ms : list Json) : string := role_of (last ms JNull).

(** A model that asks for the sprint issues once, then answers in text. *)
Definition sprint_llm (ms _ : list Json) : LLMOutcome :=
  if String.eqb (last_role ms) "user"
  then LLMOk (mkAssistantMessage None [mkToolCall "c1" "fetch_sprint_issues" "{}"])
  else LLMOk (mkAssistantMessage (Some "Here are the issues...") []).

(** A model endpoint that times out. *)
Definition timeout_llm (_ _ : list Json) : LLMOutcome := LLMFail "Request timed out.".

(** A tool server that knows only [fetch_sprint_issues]. *)
Definition sprint_tools (name : string) (_ : Json) : ToolOutcome string :=
  if String.eqb name "fetch_sprint_issues" then ToolOk "ABC-1"
  else ToolRaise ("Unknown tool: " ++ name).

(** A tool server where every tool answers. *)
Definition echo_tools (name : string) (_ : Json) : ToolOutcome string := ToolOk name.

Definition demo_loads (s : string) : option Json :=
  if String.eqb s "{}" then Some (JObj []) else None.

Definition mk_env (l : list Json -> list Json -> LLMOutcome)
    (t : string -> Json -> ToolOutcome string) : Collaborators := {|
  ToolResult := string;
  llm := l;
  session_call_tool := t;
  json_loads := demo_loads;
  render_result := fun r => r;
  now_iso := "2026-10-19T09:00:00";
  new_uuid := fun n => String.append "uuid-" (String (Ascii.ascii_of_nat (48 + n mod 10)) "");
  json_dumps_result := fun r => Some r;
  py_repr := fun _ => "<value>";
  mcp_tool_list := [];
  encode_result := JStr
|}.

Definition demo_env : Collaborators := mk_env sprint_llm sprint_tools.
Definition timeout_env : Collaborators := mk_env timeout_llm sprint_tools.
Definition upload_env : Collaborators := mk_env sprint_llm echo_tools.

(** A freshly started server: the client's own id, no files, no
    conversations. *)
Definition client0 : Client := mkClient [] [] "b7e4c1d2" (JStr "2026-10-19T09:00:00").
Definition st0 : St := mkSt client0 [] [] [] [] None 0.

Definition sprint_query : string := "list sprint 12 issues".

Definition am_sprint : AssistantMessage :=
  mkAssistantMessage None [mkToolCall "c1" "fetch_sprint_issues" "{}"].
Definition am_text : AssistantMessage :=
  mkAssistantMessage (Some "Here are the issues...") [].

(** A tool server whose issue tracker is down. *)
Definition failing_env : Collaborators :=
  mk_env sprint_llm (fun _ _ => ToolRaise "Jira API returned 503").

(** The client right after the user message of a turn was appended. *)
Definition st_user : St :=
  mkSt (with_messages [user_msg sprint_query] client0) [] [] [] [] None 0.

(** A file write that fails once (the third write of the turn). *)
Definition st_disk_hiccup : St :=
  set_io_faults [None; None; Some "[Errno 28] No space left on device"] st0.

(** The transcript of the concrete scenario of the spec, and a client
    holding it. *)
Definition sprint_transcript : list Json :=
  [user_msg sprint_query; assistant_tool_msg am_sprint; tool_msg "c1" "ABC-1";
   assistant_text_msg am_text].
Definition st_saved : St :=
  mkSt (with_messages sprint_transcript client0) [] [] [] [] None 0.

(** A server holding one conversation, under the id "a1". *)
Definition st_one : St :=
  mkSt client0 [] [] [] [("a1", [user_msg "hi"])] None 0.

(** The body of an upload request. *)
Definition upload_file : list (string * Json) :=
  [("filename", JStr "sprint12.txt"); ("content", JStr "QUJDLTE="); ("type", JStr "text/plain")].

(** ** Facts about the embedding *)

Lemma dget_dset_same {A} (k : string) (v : A) d : dget k (dset k v d) = Some v.
Proof.
  induction d as [|[k' v'] d IH]; simpl.
  - now rewrite String.eqb_refl.
  - destruct (String.eqb k k') eqn:E; simpl.
    + now rewrite E.
    + now rewrite E.
Qed.

Lemma dget_dset_other {A} (k p : string) (v : A) d :
  p <> k -> dget p (dset k v d) = dget p d.
Proof.
  intros Hne. induction d as [|[k' v'] d IH]; simpl.
  - destruct (String.eqb p k) eqn:E; [apply String.eqb_eq in E; congruence | reflexivity].
  - destruct (String.eqb k k') eqn:E; simpl.
    + apply String.eqb_eq in E; subst k'.
      destruct (String.eqb p k) eqn:E2; [apply String.eqb_eq in E2; congruence | reflexivity].
    + destruct (String.eqb p k'); [reflexivity | exact IH].
Qed.


Lemma serialize_conversation_app l1 l2 :
  serialize_conversation (l1 ++ l2) =
  match serialize_conversation l1, serialize_conversation l2 with
  | inr a, inr b => inr (a ++ b)
  | inl e, _ => inl e
  | inr _, inl e => inl e
  end.
Proof.
  induction l1 as [|m l1 IH]; simpl.
  - destruct (serialize_conversation l2); reflexivity.
  - rewrite IH. destruct (serialize_message m); [reflexivity|].
    destruct (serialize_conversation l1); [reflexivity|].
    destruct (serialize_conversation l2); reflexivity.
Qed.

(** Projections of the state updates. *)
Lemma append_messages_client ms st :
  client (append_messages_st ms st) = with_messages (messages (client st) ++ ms) (client st).
Proof. unfold append_messages_st; destruct (alias st); reflexivity. Qed.

Lemma append_messages_fs ms st : fs (append_messages_st ms st) = fs st.
Proof. unfold append_messages_st; destruct (alias st); reflexivity. Qed.

Lemma append_messages_io ms st : io_faults (append_messages_st ms st) = io_faults st.
Proof. unfold append_messages_st; destruct (alias st); reflexivity. Qed.

Lemma append_messages_trace ms st : trace (append_messages_st ms st) = trace st.
Proof. unfold append_messages_st; destruct (alias st); reflexivity. Qed.

Lemma bind_ok_inv {S A B} (m : M S A) (k : A -> M S B) st b st' :
  bind m k st = (ROk b, st') ->
  exists a st1, m st = (ROk a, st1) /\ k a st1 = (ROk b, st').
Proof.
  unfold bind. destruct (m st) as [[a| e |] st1]; intros Hb; try discriminate.
  eauto.
Qed.

Lemma bind_ok {S A B} (m : M S A) (k : A -> M S B) st a st1 :
  m st = (ROk a, st1) -> bind m k st = k a st1.
Proof. unfold bind; intros ->; reflexivity. Qed.

Lemma bind_exc {S A B} (m : M S A) (k : A -> M S B) st e st1 :
  m st = (RExc e, st1) -> bind m k st = (RExc e, st1).
Proof. unfold bind; intros ->; reflexivity. Qed.

Lemma bind_modify {S B} (f : S -> S) (k : unit -> M S B) st :
  bind (modify f) k st = k tt (f st).
Proof. reflexivity. Qed.

Lemma bind_get {S B} (k : S -> M S B) st : bind get k st = k st st.
Proof. reflexivity. Qed.

Lemma try_except_ok {S A} (m : M S A) h st a st1 :
  m st = (ROk a, st1) -> try_except m h st = (ROk a, st1).
Proof. unfold try_except; intros ->; reflexivity. Qed.

Lemma try_except_exc {S A} (m : M S A) h st e st1 :
  m st = (RExc e, st1) -> try_except m h st = h e st1.
Proof. unfold try_except; intros ->; reflexivity. Qed.

(** Reflexive and transitive relations carry over to composite code. *)
Section Preserves.
Context {S : Type} (P : S -> S -> Prop).
Hypothesis P_refl : forall s, P s s.
Hypothesis P_trans : forall s1 s2 s3, P s1 s2 -> P s2 s3 -> P s1 s3.

Lemma preserves_ret {A} (a : A) : preserves P (ret a).
Proof. intros st; apply P_refl. Qed.


Lemma preserves_get : preserves P get.
Proof. intros st; apply P_refl. Qed.

Lemma preserves_bind {A B} (m : M S A) (k : A -> M S B) :
  preserves P m -> (forall a, preserves P (k a)) -> preserves P (bind m k).
Proof.
  intros Hm Hk st. specialize (Hm st). unfold bind.
  destruct (m st) as [[a| e |] st1]; simpl in *; [|exact Hm|exact Hm].
  eapply P_trans; [exact Hm | apply Hk].
Qed.

End Preserves.

Section Orchestrator.
Context `{Collaborators}.


Lemma persist_client st : client (persist st) = client st.
Proof. unfold persist; destruct (serialize_conversation _); reflexivity. Qed.

Lemma persist_io st : io_faults (persist st) = io_faults st.
Proof. unfold persist; destruct (serialize_conversation _); reflexivity. Qed.

Lemma persist_trace st : trace (persist st) = trace st.
Proof. unfold persist; destruct (serialize_conversation _); reflexivity. Qed.

Lemma good_persist st : good st -> good (persist st).
Proof. unfold good; rewrite persist_io, persist_client; tauto. Qed.

Lemma good_add_event ev st : good (add_event ev st) <-> good st.
Proof. unfold good; reflexivity. Qed.

Lemma good_append ms st :
  good st -> serializable ms = true -> good (append_messages_st ms st).
Proof.
  unfold good, serializable; rewrite append_messages_io, append_messages_client; simpl.
  rewrite serialize_conversation_app.
  intros [Hio Hs] Hm; split; [exact Hio|].
  destruct (serialize_conversation (messages (client st))); [discriminate|].
  destruct (serialize_conversation ms); [discriminate | reflexivity].
Qed.

Lemma serializable_tool_msg i c : serializable [tool_msg i c] = true.
Proof. reflexivity. Qed.

Lemma serializable_assistant_tool_msg am : serializable [assistant_tool_msg am] = true.
Proof. reflexivity. Qed.


Lemma serializable_user_msg q : serializable [user_msg q] = true.
Proof. reflexivity. Qed.

Lemma log_self_good st : good st -> log_self st = (ROk tt, persist st).
Proof.
  intros [Hio Hs]. unfold log_self, log_conversation, persist, bind, get.
  unfold serializable in Hs.
  destruct (serialize_conversation (messages (client st))) as [e|sms]; [discriminate|].
  unfold write_file; rewrite Hio; reflexivity.
Qed.

(** [self.messages.append(m)] followed by a successful log. *)
Lemma append_log_good {A} m (k : unit -> M St A) st :
  good st -> serializable [m] = true ->
  bind (append_message m) (fun _ => bind log_self k) st
  = k tt (persist (append_messages_st [m] st)).
Proof.
  intros Hg Hm. unfold append_message. rewrite bind_modify.
  apply bind_ok, log_self_good, good_append; assumption.
Qed.

Lemma session_call_ok name args r st :
  session_call_tool name args = ToolOk r ->
  session_call name args st = (ROk r, add_event (EvTool name args) st).
Proof. unfold session_call; intros ->; reflexivity. Qed.

Lemma session_call_raise name args e st :
  session_call_tool name args = ToolRaise e ->
  session_call name args st = (RExc (Exception_ e), add_event (EvTool name args) st).
Proof. unfold session_call; intros ->; reflexivity. Qed.

Lemma log_self_trace st : trace (snd (log_self st)) = trace st.
Proof.
  unfold log_self, log_conversation, bind, get.
  destruct (serialize_conversation (messages (client st))); [reflexivity|].
  unfold write_file; destruct (io_faults st) as [|[m|] rest]; reflexivity.
Qed.

Lemma run_tool_call_good tc msgs st :
  good st ->
  run_tool_call tc msgs st
  = (ROk (msgs ++ [tool_answer tc]),
     persist (append_messages_st [tool_answer tc] (add_event (tool_event tc) st))).
Proof.
  intros Hg. unfold run_tool_call, tool_answer, tool_event, tool_text.
  assert (Hg1 := proj2 (good_add_event (EvTool (tc_name tc) (tool_args_of tc)) st) Hg).
  destruct (session_call_tool (tc_name tc) (tool_args_of tc)) as [r|e] eqn:Ho.
  - apply try_except_ok. rewrite (bind_ok _ _ _ _ _ (session_call_ok _ _ _ st Ho)).
    apply append_log_good; [exact Hg1 | apply serializable_tool_msg].
  - rewrite (try_except_exc _ _ _ _ _
               (bind_exc _ _ _ _ _ (session_call_raise _ _ _ st Ho))).
    apply append_log_good; [exact Hg1 | apply serializable_tool_msg].
Qed.


Lemma same_trace_refl s : same_trace s s.
Proof. reflexivity. Qed.

Lemma same_trace_trans s1 s2 s3 : same_trace s1 s2 -> same_trace s2 s3 -> same_trace s1 s3.
Proof. unfold same_trace; congruence. Qed.

Lemma log_self_same_trace : preserves same_trace log_self.
Proof. intros st; apply log_self_trace. Qed.

Lemma append_log_ret_same_trace {A} m (x : A) :
  preserves same_trace (append_message m ;; log_self ;; ret x).
Proof.
  apply preserves_bind; [exact same_trace_trans| |intros _].
  - intros st; apply append_messages_trace.
  - apply preserves_bind; [exact same_trace_trans | apply log_self_same_trace | intros _].
    apply preserves_ret, same_trace_refl.
Qed.

(** Whatever the store does, a tool call makes exactly one MCP call, with
    the arguments [tool_args_of] gives. *)
Lemma run_tool_call_trace tc msgs st :
  trace (snd (run_tool_call tc msgs st)) = trace st ++ [tool_event tc].
Proof.
  unfold run_tool_call, tool_event, try_except.
  set (st1 := add_event (EvTool (tc_name tc) (tool_args_of tc)) st).
  assert (Ht1 : trace st1 = trace st ++ [EvTool (tc_name tc) (tool_args_of tc)]) by reflexivity.
  rewrite <- Ht1.
  destruct (session_call_tool (tc_name tc) (tool_args_of tc)) as [r|e] eqn:Ho.
  - rewrite (bind_ok _ _ _ _ _ (session_call_ok _ _ _ st Ho)). fold st1.
    pose proof (append_log_ret_same_trace (tool_msg (tc_id tc) (render_result r))
                  (msgs ++ [tool_msg (tc_id tc) (render_result r)]) st1) as Hk.
    destruct ((append_message _ ;; log_self ;; ret _) st1) as [[a| e |] st2];
      simpl in Hk |- *; [exact Hk| idtac |exact Hk].
    etransitivity; [apply append_log_ret_same_trace|].
    unfold same_trace in Hk; rewrite Hk; reflexivity.
  - rewrite (bind_exc _ _ _ _ _ (session_call_raise _ _ _ st Ho)). fold st1.
    apply append_log_ret_same_trace.
Qed.

Lemma run_tool_calls_good tcs msgs st :
  good st ->
  exists st',
    run_tool_calls tcs msgs st = (ROk (msgs ++ map tool_answer tcs), st') /\
    good st' /\
    messages (client st') = messages (client st) ++ map tool_answer tcs /\
    trace st' = trace st ++ map tool_event tcs /\
    tools (client st') = tools (client st).
Proof.
  revert msgs st; induction tcs as [|tc tcs IH]; intros msgs st Hg.
  - exists st; simpl; rewrite !app_nil_r; auto.
  - simpl. unfold bind at 1. rewrite run_tool_call_good by exact Hg.
    set (st1 := persist (append_messages_st [tool_answer tc] (add_event (tool_event tc) st))).
    assert (Hg1 : good st1).
    { apply good_persist, good_append; [apply good_add_event, Hg | apply serializable_tool_msg]. }
    destruct (IH (msgs ++ [tool_answer tc]) st1 Hg1) as (st' & Hrun & Hg' & Hm & Ht & Htl).
    exists st'. rewrite Hrun, <- app_assoc. split; [reflexivity|].
    unfold st1 in Hm, Ht, Htl.
    rewrite persist_client, append_messages_client in Hm, Htl.
    rewrite persist_trace, append_messages_trace in Ht.
    simpl in Hm, Ht, Htl. rewrite <- app_assoc in Hm, Ht. auto.
Qed.




Lemma turn_loop_S f msgs :
  turn_loop (S f) msgs =
  bind call_llm (fun am =>
    match am_tool_calls am with
    | [] =>
        let a := assistant_text_msg am in
        append_message a ;; log_self ;; ret (msgs ++ [a])
    | _ :: _ =>
        let a := assistant_tool_msg am in
        append_message a ;; log_self ;;
        msgs' <- run_tool_calls (am_tool_calls am) (msgs ++ [a]) ;;
        turn_loop f msgs'
    end).
Proof. reflexivity. Qed.

Lemma call_llm_ok st am :
  llm (messages (client st)) (tools (client st)) = LLMOk am ->
  call_llm st = (ROk am, add_event (EvLLM (messages (client st)) (tools (client st))) st).
Proof. unfold call_llm; intros ->; reflexivity. Qed.

Lemma call_llm_fail st e :
  llm (messages (client st)) (tools (client st)) = LLMFail e ->
  call_llm st = (RExc (Exception_ ("Failed to call LLM: " ++ e)),
                 add_event (EvLLM (messages (client st)) (tools (client st))) st).
Proof. unfold call_llm; intros ->; reflexivity. Qed.

(** One iteration of the loop on a response that requests tools. *)
Lemma turn_loop_tool_step f msgs st am :
  good st ->
  llm (messages (client st)) (tools (client st)) = LLMOk am ->
  am_tool_calls am <> [] ->
  exists st',
    turn_loop (S f) msgs st
    = turn_loop f ((msgs ++ [assistant_tool_msg am]) ++ map tool_answer (am_tool_calls am)) st' /\
    good st' /\
    messages (client st') =
      messages (client st) ++ assistant_tool_msg am :: map tool_answer (am_tool_calls am) /\
    trace st' =
      trace st ++ EvLLM (messages (client st)) (tools (client st))
                 :: map tool_event (am_tool_calls am) /\
    tools (client st') = tools (client st).
Proof.
  intros Hg Hllm Hne. rewrite turn_loop_S, (bind_ok _ _ _ _ _ (call_llm_ok _ _ Hllm)).
  set (st1 := add_event _ st).
  assert (Hg1 : good st1) by (apply good_add_event, Hg).
  destruct (am_tool_calls am) as [|tc tcs] eqn:E; [congruence|].
  rewrite <- E. cbv zeta.
  rewrite (append_log_good _ _ _ Hg1 (serializable_assistant_tool_msg am)).
  set (st2 := persist (append_messages_st [assistant_tool_msg am] st1)).
  assert (Hg2 : good st2)
    by (apply good_persist, good_append; [exact Hg1 | apply serializable_assistant_tool_msg]).
  destruct (run_tool_calls_good (am_tool_calls am) (msgs ++ [assistant_tool_msg am]) st2 Hg2)
    as (st' & Hrun & Hg' & Hm & Ht & Htl).
  exists st'. rewrite (bind_ok _ _ _ _ _ Hrun).
  unfold st2, st1 in Hm, Ht, Htl.
  rewrite persist_client, append_messages_client in Hm, Htl.
  rewrite persist_trace, append_messages_trace in Ht.
  simpl in Hm, Ht, Htl. rewrite <- app_assoc in Hm, Ht.
  exact (conj eq_refl (conj Hg' (conj Hm (conj Ht Htl)))).
Qed.


Lemma trace_grows_refl s : trace_grows s s.
Proof. exists []; now rewrite app_nil_r. Qed.

Lemma trace_grows_trans s1 s2 s3 : trace_grows s1 s2 -> trace_grows s2 s3 -> trace_grows s1 s3.
Proof. intros [l1 H1] [l2 H2]; exists (l1 ++ l2); rewrite H2, H1, app_assoc; reflexivity. Qed.

Lemma trace_grows_same s s' : same_trace s s' -> trace_grows s s'.
Proof. intros E; exists []; rewrite app_nil_r; exact E. Qed.

Lemma call_llm_grows : preserves trace_grows call_llm.
Proof.
  intros st; unfold call_llm.
  destruct (llm _ _); eexists; reflexivity.
Qed.

Lemma run_tool_call_grows tc msgs : preserves trace_grows (run_tool_call tc msgs).
Proof. intros st; eexists; apply run_tool_call_trace. Qed.

Lemma run_tool_calls_grows tcs msgs : preserves trace_grows (run_tool_calls tcs msgs).
Proof.
  revert msgs; induction tcs as [|tc tcs IH]; intros msgs; simpl.
  - apply preserves_ret, trace_grows_refl.
  - apply preserves_bind; [exact trace_grows_trans | apply run_tool_call_grows | apply IH].
Qed.

Lemma append_log_grows {A} m (k : unit -> M St A) :
  preserves trace_grows (k tt) ->
  preserves trace_grows (append_message m ;; log_self ;; k tt).
Proof.
  intros Hk.
  apply preserves_bind; [exact trace_grows_trans | | intros []].
  - intros st; apply trace_grows_same, append_messages_trace.
  - apply preserves_bind; [exact trace_grows_trans | | intros []; exact Hk].
    intros st; apply trace_grows_same, log_self_trace.
Qed.

Lemma turn_loop_grows f msgs : preserves trace_grows (turn_loop f msgs).
Proof.
  revert msgs; induction f as [|f IH]; intros msgs.
  - intros st; apply trace_grows_refl.
  - rewrite turn_loop_S.
    apply preserves_bind; [exact trace_grows_trans | apply call_llm_grows | intros am].
    destruct (am_tool_calls am); cbv zeta.
    + apply (append_log_grows _ (fun _ => ret _)), preserves_ret, trace_grows_refl.
    + apply (append_log_grows _ (fun _ => bind (run_tool_calls _ _) _)).
      apply preserves_bind; [exact trace_grows_trans | apply run_tool_calls_grows | apply IH].
Qed.

(** An iteration with fuel left starts with a request to the model carrying
    the whole current [self.messages] and [self.tools]. *)
Lemma turn_loop_calls_llm f msgs st :
  exists rest,
    trace (snd (turn_loop (S f) msgs st))
    = trace st ++ EvLLM (messages (client st)) (tools (client st)) :: rest.
Proof.
  rewrite turn_loop_S. unfold bind at 1.
  set (ev := EvLLM (messages (client st)) (tools (client st))).
  assert (Hc : exists r, call_llm st = (r, add_event ev st))
    by (unfold call_llm; destruct (llm _ _); eexists; reflexivity).
  destruct Hc as [r Hc]. rewrite Hc.
  assert (Hrest : forall st', trace_grows (add_event ev st) st' ->
                    exists rest, trace st' = trace st ++ ev :: rest).
  { intros st' [l Hl]. exists l. rewrite Hl. simpl. rewrite <- app_assoc. reflexivity. }
  destruct r as [am| e |]; simpl; [| exists []; reflexivity | exists []; reflexivity].
  apply Hrest.
  generalize (add_event ev st); intros s.
  destruct (am_tool_calls am); cbv zeta.
  - apply (append_log_grows _ (fun _ => ret _)), preserves_ret, trace_grows_refl.
  - apply (append_log_grows _ (fun _ => bind (run_tool_calls _ _) _)).
    apply preserves_bind; [exact trace_grows_trans | apply run_tool_calls_grows | apply turn_loop_grows].
Qed.

Lemma answered_text am d :
  answered_from [] (assistant_text_msg am :: d) = answered_from [] d.
Proof. reflexivity. Qed.





(** ** The claims about the turn orchestrator *)

(** C5. When the model requests tool calls and a tool invocation raises,
    the orchestrator appends a tool-role message with that call's id and
    the text ["Tool execution failed: <error>"], does not abort the turn,
    and goes on to the next iteration, which calls the model again with the
    transcript that now holds the error message. (The store is assumed to
    work: a failing file write is a store error of its own.) *)
Theorem tool_error_recovered f msgs st am :
  good st ->
  llm (messages (client st)) (tools (client st)) = LLMOk am ->
  am_tool_calls am <> [] ->
  exists st',
    turn_loop (S (S f)) msgs st
      = turn_loop (S f) ((msgs ++ [assistant_tool_msg am]) ++ map tool_answer (am_tool_calls am)) st' /\
    messages (client st')
      = messages (client st) ++ assistant_tool_msg am :: map tool_answer (am_tool_calls am) /\
    (forall tc e,
       In tc (am_tool_calls am) ->
       session_call_tool (tc_name tc) (tool_args_of tc) = ToolRaise e ->
       In (tool_msg (tc_id tc) ("Tool execution failed: " ++ e)) (messages (client st'))) /\
    (exists rest,
       trace (snd (turn_loop (S (S f)) msgs st))
       = trace st' ++ EvLLM (messages (client st')) (tools (client st')) :: rest).
Proof.
  intros Hg Hllm Hne.
  destruct (turn_loop_tool_step (S f) msgs st am Hg Hllm Hne) as (st' & Hstep & _ & Hm & _ & _).
  exists st'. split; [exact Hstep|]. split; [exact Hm|]. split.
  - intros tc e Hin Hraise. rewrite Hm. apply in_or_app; right; right.
    replace (tool_msg (tc_id tc) ("Tool execution failed: " ++ e)) with (tool_answer tc)
      by (unfold tool_answer, tool_text; rewrite Hraise; reflexivity).
    apply in_map, Hin.
  - rewrite Hstep. apply turn_loop_calls_llm.
Qed.

(** C6. When a tool call's argument string is not valid JSON, the tool is
    invoked with the empty arguments [{}] (the one MCP call the step makes),
    and with a working store the step returns normally with the tool's
    answer to those arguments: the turn is not aborted. *)
Theorem malformed_arguments_empty_call tc msgs st :
  json_loads (tc_arguments tc) = None ->
  trace (snd (run_tool_call tc msgs st)) = trace st ++ [EvTool (tc_name tc) (JObj [])] /\
  (good st ->
   fst (run_tool_call tc msgs st)
   = ROk (msgs ++ [tool_msg (tc_id tc) (tool_text (session_call_tool (tc_name tc) (JObj [])))])).
Proof.
  intros Hj.
  assert (Ha : tool_args_of tc = JObj []) by (unfold tool_args_of; rewrite Hj; reflexivity).
  split.
  - rewrite run_tool_call_trace. unfold tool_event. rewrite Ha. reflexivity.
  - intros Hg. rewrite run_tool_call_good by exact Hg.
    unfold tool_answer. rewrite Ha. reflexivity.
Qed.

(** C3, as the code does it. A failing model call raises
    ["Failed to call LLM: <error>"] and changes nothing but the request
    trace: no message is appended and no file is written. But the user
    message was appended and written to the durable file before the first
    model call (as each earlier message of the turn was), so when that call
    fails the persisted transcript is the old one plus the user message. *)
Theorem model_failure_keeps_persisted_steps :
  (forall f msgs st e,
     llm (messages (client st)) (tools (client st)) = LLMFail e ->
     turn_loop (S f) msgs st
     = (RExc (Exception_ ("Failed to call LLM: " ++ e)),
        add_event (EvLLM (messages (client st)) (tools (client st))) st)) /\
  (forall f q st e,
     good st ->
     llm (messages (client st) ++ [user_msg q]) (tools (client st)) = LLMFail e ->
     exists st',
       process_query (S f) q st = (RExc (Exception_ ("Failed to call LLM: " ++ e)), st') /\
       messages (client st') = messages (client st) ++ [user_msg q] /\
       persisted st' /\
       conversation_id (client st') = conversation_id (client st)).
Proof.
  split.
  - intros f msgs st e Hllm. rewrite turn_loop_S. apply bind_exc, call_llm_fail, Hllm.
  - intros f q st e Hg Hllm. unfold process_query. cbv zeta.
    rewrite (append_log_good _ _ _ Hg (serializable_user_msg q)).
    set (st1 := append_messages_st [user_msg q] st).
    assert (Hm1 : messages (client st1) = messages (client st) ++ [user_msg q])
      by (unfold st1; rewrite append_messages_client; reflexivity).
    assert (Hg1 : good st1) by (apply good_append; [exact Hg | apply serializable_user_msg]).
    rewrite turn_loop_S.
    rewrite (bind_exc _ _ _ _ _ (call_llm_fail (persist st1) e
               ltac:(rewrite persist_client, Hm1; unfold st1; rewrite append_messages_client; exact Hllm))).
    eexists; split; [reflexivity|].
    simpl. rewrite persist_client. split; [exact Hm1|]. split.
    + destruct Hg1 as [_ Hs]. unfold serializable in Hs. unfold persisted, persist. simpl.
      destruct (serialize_conversation (messages (client st1))) as [|sms] eqn:E; [discriminate|].
      exists sms. split; [exact E|]. simpl. apply dget_dset_same.
    + unfold st1; rewrite append_messages_client; reflexivity.
Qed.

End Orchestrator.

(** ** Concrete runs of the orchestrator *)

Lemma tool_error_recovered_witness :
  good st_user /\
  @llm failing_env (messages (client st_user)) (tools (client st_user)) = LLMOk am_sprint /\
  exists st',
    messages (client st') =
      [user_msg sprint_query; assistant_tool_msg am_sprint;
       tool_msg "c1" "Tool execution failed: Jira API returned 503"].
Proof.
  split; [split; reflexivity|]. split; [reflexivity|].
  destruct (@tool_error_recovered failing_env 0 [] st_user am_sprint
              (conj eq_refl eq_refl) eq_refl ltac:(discriminate)) as (st' & _ & Hm & _).
  exists st'. rewrite Hm. reflexivity.
Defined.

Lemma malformed_arguments_empty_call_witness :
  demo_loads "sprint=12" = None /\
  trace (snd (@run_tool_call demo_env (mkToolCall "c2" "fetch_sprint_issues" "sprint=12") [] st_user))
  = trace st_user ++ [EvTool "fetch_sprint_issues" (JObj [])].
Proof.
  split; [reflexivity|].
  exact (proj1 (@malformed_arguments_empty_call demo_env
                  (mkToolCall "c2" "fetch_sprint_issues" "sprint=12") [] st_user eq_refl)).
Defined.

Lemma model_failure_keeps_persisted_steps_witness :
  @turn_loop timeout_env 3 [] st_user
    = (RExc (Exception_ "Failed to call LLM: Request timed out."),
       add_event (EvLLM [user_msg sprint_query] []) st_user) /\
  exists st',
    @process_query timeout_env 3 sprint_query st0
      = (RExc (Exception_ "Failed to call LLM: Request timed out."), st') /\
    messages (client st') = [user_msg sprint_query].
Proof.
  split.
  - exact (proj1 (@model_failure_keeps_persisted_steps timeout_env) 2 [] st_user
             "Request timed out." eq_refl).
  - destruct (proj2 (@model_failure_keeps_persisted_steps timeout_env) 2 sprint_query st0
                "Request timed out." (conj eq_refl eq_refl) eq_refl) as (st' & Hrun & Hm & _).
    exists st'. split; [exact Hrun | exact Hm].
Defined.

(** C3 fails as stated: the model endpoint times out on the first call, the
    turn raises, and yet the durable file, absent before, now holds the
    user message. *)
Lemma model_timeout_changes_persisted_transcript :
  fst (@process_query timeout_env 5 sprint_query st0)
    = RExc (Exception_ "Failed to call LLM: Request timed out.") /\
  dget (get_conversation_path "b7e4c1d2") (fs st0) = None /\
  dget (get_conversation_path "b7e4c1d2") (fs (snd (@process_query timeout_env 5 sprint_query st0)))
    = Some (JObj [("id", JStr "b7e4c1d2"); ("created_at", JStr "2026-10-19T09:00:00");
                  ("messages", JList [user_msg sprint_query])]).
Proof. split; [|split]; vm_compute; reflexivity. Qed.

(** C1 fails on the code: the write of [log_conversation] right after the
    tool's result is inside the [try] of the tool call; when it fails once,
    the [except] branch appends a second tool message for the same request,
    and the turn completes with a transcript that answers "c1" twice. *)
Theorem write_fault_duplicates_tool_answer :
  (exists r, fst (@process_query demo_env 5 sprint_query st_disk_hiccup) = ROk r) /\
  messages (client (snd (@process_query demo_env 5 sprint_query st_disk_hiccup)))
    = [user_msg sprint_query; assistant_tool_msg am_sprint; tool_msg "c1" "ABC-1";
       tool_msg "c1" "Tool execution failed: [Errno 28] No space left on device";
       assistant_text_msg am_text] /\
  answered_from [] (messages (client (snd (@process_query demo_env 5 sprint_query st_disk_hiccup))))
    = None.
Proof.
  split; [eexists; vm_compute; reflexivity|].
  split; vm_compute; reflexivity.
Qed.

(** C2 fails on the code: saving the spec's sprint transcript and loading it
    back loses the assistant's tool-call requests (and its [None] content
    becomes []) and the tool message's [tool_call_id]. *)
Theorem save_load_drops_tool_fields :
  messages (client (snd (@load_conversation demo_env "b7e4c1d2"
                           (snd (log_self st_saved)))))
    = [user_msg sprint_query;
       JObj [("role", JStr "assistant"); ("content", JList [])];
       JObj [("role", JStr "tool"); ("content", JStr "ABC-1")];
       assistant_text_msg am_text] /\
  messages (client (snd (@load_conversation demo_env "b7e4c1d2"
                           (snd (log_self st_saved)))))
    <> messages (client st_saved).
Proof.
  assert (E : messages (client (snd (@load_conversation demo_env "b7e4c1d2"
                                      (snd (log_self st_saved)))))
              = [user_msg sprint_query;
                 JObj [("role", JStr "assistant"); ("content", JList [])];
                 JObj [("role", JStr "tool"); ("content", JStr "ABC-1")];
                 assistant_text_msg am_text]) by (vm_compute; reflexivity).
  split; [exact E|]. rewrite E. vm_compute. discriminate.
Qed.

(** C4 fails on the code: the requests sent to the model are [self.messages]
    alone; the system message only heads the list [process_query] returns. *)
Theorem system_prompt_not_sent :
  (exists r, fst (@process_query demo_env 5 sprint_query st0) = ROk (system_msg :: r)) /\
  trace (snd (@process_query demo_env 5 sprint_query st0))
    = [EvLLM [user_msg sprint_query] [];
       EvTool "fetch_sprint_issues" (JObj []);
       EvLLM [user_msg sprint_query; assistant_tool_msg am_sprint; tool_msg "c1" "ABC-1"] []].
Proof. split; [eexists; vm_compute; reflexivity | vm_compute; reflexivity]. Qed.

(** ** The HTTP layer *)

Section Frame.
Context `{Collaborators}.

Lemma durable_frame_refl s : durable_frame s s.
Proof. split; reflexivity. Qed.

Lemma durable_frame_trans s1 s2 s3 :
  durable_frame s1 s2 -> durable_frame s2 s3 -> durable_frame s1 s3.
Proof.
  intros [E12 F12] [E23 F23]. split; [congruence|].
  intros p Hp. rewrite F23 by congruence. apply F12; exact Hp.
Qed.

Lemma frame_ret {A} (a : A) : preserves durable_frame (ret a).
Proof. intros st; apply durable_frame_refl. Qed.

Lemma frame_raise {A} e : preserves durable_frame (A := A) (raise e).
Proof. intros st; apply durable_frame_refl. Qed.

Lemma frame_get : preserves durable_frame get.
Proof. intros st; apply durable_frame_refl. Qed.

Lemma frame_modify f :
  (forall st, durable_frame st (f st)) -> preserves durable_frame (modify f).
Proof. intros Hf st; apply Hf. Qed.

Lemma frame_bind {A B} (m : M St A) (k : A -> M St B) :
  preserves durable_frame m -> (forall a, preserves durable_frame (k a)) ->
  preserves durable_frame (bind m k).
Proof.
  intros Hm Hk st. specialize (Hm st). unfold bind.
  destruct (m st) as [[a| e |] st1]; simpl in *; [|exact Hm|exact Hm].
  eapply durable_frame_trans; [exact Hm | apply Hk].
Qed.

Lemma frame_try {A} (m : M St A) h :
  preserves durable_frame m -> (forall e, preserves durable_frame (h e)) ->
  preserves durable_frame (try_except m h).
Proof.
  intros Hm Hh st. specialize (Hm st). unfold try_except.
  destruct (m st) as [[a| e |] st1]; simpl in *; [exact Hm| |exact Hm].
  eapply durable_frame_trans; [exact Hm | apply Hh].
Qed.

(** The one write of the program goes to the client's own path. *)
Lemma log_conversation_frame conv : preserves durable_frame (log_conversation conv).
Proof.
  intros st. unfold log_conversation. rewrite bind_get.
  destruct (serialize_conversation conv) as [e|sms]; [apply durable_frame_refl|].
  unfold write_file. destruct (io_faults st) as [|[m|] rest];
    (split; [reflexivity|]); intros p Hp; simpl; try reflexivity;
    apply dget_dset_other; exact Hp.
Qed.

Lemma log_self_frame : preserves durable_frame log_self.
Proof. intros st. unfold log_self. rewrite bind_get. apply log_conversation_frame. Qed.

Lemma append_message_frame m : preserves durable_frame (append_message m).
Proof.
  apply frame_modify. intros st. split.
  - rewrite append_messages_client. reflexivity.
  - intros p _. rewrite append_messages_fs. reflexivity.
Qed.

Lemma call_llm_frame : preserves durable_frame call_llm.
Proof.
  intros st. unfold call_llm. destruct (llm _ _); split; reflexivity.
Qed.

Lemma session_call_frame name args : preserves durable_frame (session_call name args).
Proof.
  intros st. unfold session_call. destruct (session_call_tool _ _); split; reflexivity.
Qed.

Lemma client_call_tool_frame name args : preserves durable_frame (client_call_tool name args).
Proof.
  apply frame_try; [apply session_call_frame | intros; apply frame_raise].
Qed.

Create HintDb frame.
#[local] Hint Resolve frame_ret frame_raise frame_get log_self_frame append_message_frame
  call_llm_frame session_call_frame client_call_tool_frame : frame.

Ltac frame :=
  repeat (intros; first [ solve [eauto with frame] | apply frame_bind | apply frame_try ]).

Lemma run_tool_call_frame tc msgs : preserves durable_frame (run_tool_call tc msgs).
Proof. unfold run_tool_call. frame. Qed.

Lemma run_tool_calls_frame tcs msgs : preserves durable_frame (run_tool_calls tcs msgs).
Proof.
  revert msgs; induction tcs as [|tc tcs IH]; intros msgs; simpl;
    [apply frame_ret|].
  apply frame_bind; [apply run_tool_call_frame | intros; apply IH].
Qed.

Lemma turn_loop_frame f msgs : preserves durable_frame (turn_loop f msgs).
Proof.
  revert msgs; induction f as [|f IH]; intros msgs; simpl.
  - intros st; apply durable_frame_refl.
  - apply frame_bind; [apply call_llm_frame|]. intros am.
    destruct (am_tool_calls am) as [|tc tcs].
    + frame.
    + apply frame_bind; [apply append_message_frame|]. intros _.
      apply frame_bind; [apply log_self_frame|]. intros _.
      apply frame_bind; [apply run_tool_calls_frame|]. intros msgs'.
      apply IH.
Qed.

Lemma process_query_frame fuel q : preserves durable_frame (process_query fuel q).
Proof.
  unfold process_query.
  apply frame_bind; [apply append_message_frame|]. intros _.
  apply frame_bind; [apply log_self_frame|]. intros _.
  apply turn_loop_frame.
Qed.

Lemma fresh_uuid_frame : preserves durable_frame fresh_uuid.
Proof. intros st; split; reflexivity. Qed.

Lemma convo_id_of_frame cid : preserves durable_frame (convo_id_of cid).
Proof.
  unfold convo_id_of. destruct (String.eqb cid "");
    [apply fresh_uuid_frame | apply frame_ret].
Qed.

Lemma item_frame {A} (d : list (string * A)) k : preserves durable_frame (item d k).
Proof. unfold item. destruct (dget k d); [apply frame_ret | apply frame_raise]. Qed.

#[local] Hint Resolve fresh_uuid_frame convo_id_of_frame item_frame
  process_query_frame : frame.

Lemma http_process_query_frame fuel q cid :
  preserves durable_frame (http_process_query fuel q cid).
Proof.
  unfold http_process_query, http500. frame.
  destruct (dget a (conversations a0)); apply frame_modify; intros st; split; reflexivity.
Qed.

Lemma handle_file_upload_frame file cid :
  preserves durable_frame (handle_file_upload file cid).
Proof.
  unfold handle_file_upload, http500. frame.
  - destruct (json_dumps_result _); [apply frame_ret | apply frame_raise].
  - apply frame_modify. intros st. unfold extend_conversation.
    destruct (match alias st with Some a => String.eqb a _ | None => false end);
      split; reflexivity.
Qed.

Lemma delete_conversation_post_frame cid :
  preserves durable_frame (delete_conversation_post cid).
Proof.
  intros st. unfold delete_conversation_post. rewrite bind_get.
  destruct (dget cid (conversations st)); [|apply durable_frame_refl].
  split; reflexivity.
Qed.

Lemma handle_frame fuel r : preserves durable_frame (handle fuel r).
Proof.
  destruct r; simpl.
  - apply http_process_query_frame.
  - apply handle_file_upload_frame.
  - apply frame_ret.
  - unfold list_conversations. frame.
  - intros st. unfold get_conversation. rewrite bind_get.
    destruct (dget cid (conversations st)); apply durable_frame_refl.
  - apply delete_conversation_post_frame.
  - unfold http_call_tool, http500. frame.
Qed.

(** C9: whatever requests the server answers, the client keeps the
    [conversation_id] it was built with, and the only file that can change
    is the one at the path of that id; so the turns of every HTTP
    conversation, whatever its id, write the same single file. *)
Theorem serve_writes_one_file fuel rs st :
  conversation_id (client (snd (serve fuel rs st))) = conversation_id (client st) /\
  forall p, p <> get_conversation_path (conversation_id (client st)) ->
            dget p (fs (snd (serve fuel rs st))) = dget p (fs st).
Proof.
  revert st; induction rs as [|r rs IH]; intros st; simpl; [split; reflexivity|].
  pose proof (handle_frame fuel r st) as Hr.
  destruct (handle fuel r st) as [o st1].
  specialize (IH st1). destruct (serve fuel rs st1) as [os st2]. simpl in *.
  exact (durable_frame_trans _ _ _ Hr IH).
Qed.
End Frame.

Section Http.
Context `{Collaborators}.

Lemma extend_fs k ms st : fs (extend_conversation k ms st) = fs st.
Proof.
  unfold extend_conversation.
  destruct (alias st) as [a|]; [destruct (String.eqb a k)|]; reflexivity.
Qed.

Lemma extend_trace k ms st : trace (extend_conversation k ms st) = trace st.
Proof.
  unfold extend_conversation.
  destruct (alias st) as [a|]; [destruct (String.eqb a k)|]; reflexivity.
Qed.

Lemma extend_conversations k ms st :
  conversations (extend_conversation k ms st)
  = dset k (match dget k (conversations st) with Some l => l | None => [] end ++ ms)
         (conversations st).
Proof.
  unfold extend_conversation.
  destruct (alias st) as [a|]; [destruct (String.eqb a k)|]; reflexivity.
Qed.

(** C7 (amended): deleting an id stored in [app.state.conversations] removes
    its entry, answers [Conversation <id> deleted] and writes no file;
    deleting an id that is not stored (never created, or already deleted)
    fails with HTTP 404 [Conversation not found] and changes nothing. *)
Theorem delete_conversation_outcome cid st :
  match dget cid (conversations st) with
  | None =>
      delete_conversation_post cid st
        = (RExc (HTTPException 404 "Conversation not found"), st)
  | Some _ =>
      fst (delete_conversation_post cid st)
        = ROk (JObj [("detail", JStr ("Conversation " ++ cid ++ " deleted"))]) /\
      conversations (snd (delete_conversation_post cid st)) = ddel cid (conversations st) /\
      fs (snd (delete_conversation_post cid st)) = fs st
  end.
Proof.
  unfold delete_conversation_post. rewrite bind_get.
  destruct (dget cid (conversations st)); [|reflexivity].
  split; [reflexivity | split; reflexivity].
Qed.

(** C8: a turn against a non-empty id that is not stored runs
    [process_query] on a client whose messages were rebound to a fresh
    empty list, then stores the resulting messages under that id; a failure
    of the turn is reported as HTTP 500, never as a not-found error. *)
Theorem unknown_id_starts_fresh fuel q cid st :
  cid <> "" -> dget cid (conversations st) = None ->
  http_process_query fuel q cid st =
  match process_query fuel q (rebind_messages [] st) with
  | (ROk msgs, st1) =>
      (ROk (JObj [("messages", JList msgs); ("conversation_id", JStr cid)]),
       set_alias (Some cid)
         (set_conversations (dset cid (messages (client st1)) (conversations st1)) st1))
  | (RExc e, st1) => (RExc (HTTPException 500 (exc_str e)), st1)
  | (RFuel, st1) => (RFuel, st1)
  end.
Proof.
  intros Hne Hnone.
  unfold http_process_query, http500, convo_id_of.
  rewrite (proj2 (String.eqb_neq cid "") Hne).
  unfold try_except, bind, ret, get, modify. cbv beta iota zeta.
  rewrite Hnone.
  destruct (process_query fuel q (rebind_messages [] st)) as [[msgs|e|] st1]; reflexivity.
Qed.

(** C10 (amended): a call of [POST /file] with conversation id [cid] (a
    fresh uuid when empty) either fails with HTTP 500 and leaves the stored
    conversations as they were, or appends to the conversation of that id
    (created empty when missing) exactly two user-role messages: the upload
    notice for the file's [filename], then a [tool_result] payload holding
    the dumped tool result. Either way no file is written, and the only
    external call is at most one [read_uploaded_file] tool call: the model
    is never called. *)
Theorem file_upload_outcome file cid st :
  let k := if String.eqb cid "" then new_uuid (uuid_ctr st) else cid in
  let old := match dget k (conversations st) with Some l => l | None => [] end in
  let st' := snd (handle_file_upload file cid st) in
  fs st' = fs st /\
  (trace st' = trace st \/
   exists args, trace st' = trace st ++ [EvTool "read_uploaded_file" args]) /\
  match fst (handle_file_upload file cid st) with
  | ROk _ =>
      exists filename dumped,
        dget "filename" file = Some filename /\
        conversations st'
          = dset k (old ++ [upload_notice filename; upload_result_msg dumped])
                 (conversations st)
  | RExc e => conversations st' = conversations st /\ exists d, e = HTTPException 500 d
  | RFuel => False
  end.
Proof.
  cbv zeta.
  unfold handle_file_upload, http500, convo_id_of, fresh_uuid, item,
    client_call_tool, session_call, try_except, bind, ret, raise, get, modify.
  cbv beta iota zeta.
  destruct (String.eqb cid "");
    (destruct (dget "filename" file) as [fn|];
     [destruct (dget "content" file) as [ct|];
      [destruct (session_call_tool _ _) as [r|msg];
       [destruct (json_dumps_result r) as [d|]|]|]|]); cbv beta iota;
    cbn [fst snd]; rewrite ?extend_fs, ?extend_trace, ?extend_conversations;
    (split; [reflexivity|]);
    (split; [first [left; reflexivity | right; eexists; reflexivity]|]);
    first [ split; [reflexivity | eexists; reflexivity]
          | eexists _, _; split; reflexivity ].
Qed.
End Http.

(** ** Concrete runs of the server *)

(** C7 fails as stated: of two identical delete requests, the second one
    (the id is no longer stored) fails with HTTP 404. *)
Lemma delete_twice_second_fails :
  fst (@serve demo_env 0 [PostDelete "a1"; PostDelete "a1"] st_one)
  = [ROk (JObj [("detail", JStr "Conversation a1 deleted")]);
     RExc (HTTPException 404 "Conversation not found")].
Proof. vm_compute. reflexivity. Qed.

Lemma unknown_id_starts_fresh_witness :
  "sprint-12-chat" <> "" /\
  dget "sprint-12-chat" (conversations st0) = None /\
  conversations (snd (@http_process_query demo_env 5 sprint_query "sprint-12-chat" st0))
  = [("sprint-12-chat", sprint_transcript)].
Proof.
  split; [discriminate|]. split; [reflexivity|].
  rewrite (@unknown_id_starts_fresh demo_env 5 sprint_query "sprint-12-chat" st0
             ltac:(discriminate) eq_refl).
  vm_compute. reflexivity.
Defined.

(** Two turns under two HTTP ids: the store holds both conversations, but
    there is one file, and it holds the second one only. *)
Lemma two_ids_one_file :
  map fst (conversations (snd (@serve demo_env 5
             [PostQuery sprint_query "A"; PostQuery "what about sprint 13" "B"] st0)))
    = ["A"; "B"] /\
  fs (snd (@serve demo_env 5
             [PostQuery sprint_query "A"; PostQuery "what about sprint 13" "B"] st0))
    = [(get_conversation_path "b7e4c1d2",
        conversation_record client0
          [user_msg "what about sprint 13";
           JObj [("role", JStr "assistant"); ("content", JList [])];
           JObj [("role", JStr "tool"); ("content", JStr "ABC-1")];
           assistant_text_msg am_text])].
Proof. split; vm_compute; reflexivity. Qed.

(** C10 fails as stated: when the upload tool raises, the request fails
    with HTTP 500 and no message is appended to any conversation. *)
Lemma upload_tool_failure_appends_nothing :
  fst (@handle_file_upload demo_env upload_file "A" st0)
    = RExc (HTTPException 500 "Failed to call tool: Unknown tool: read_uploaded_file") /\
  conversations (snd (@handle_file_upload demo_env upload_file "A" st0)) = [].
Proof. split; vm_compute; reflexivity. Qed.

(** ** Connecting to the server *)

Section ConnectFacts.
Variable open_session : StdioServerParameters -> option string.
Variable list_tools : ListToolsOutcome.

(** A script path ending neither in [.py] nor in [.js] is refused before
    anything is started, with a wrapped message, and the state is left as
    it was. *)
Theorem connect_rejects_other_scripts p st :
  endswith p ".py" = false -> endswith p ".js" = false ->
  connect_to_server open_session list_tools p st
  = (RExc (Exception_ "Failed to connect to server: Server script must be a .py or .js file"), st).
Proof.
  intros Hpy Hjs. unfold connect_to_server, try_except. cbv zeta.
  rewrite Hpy, Hjs. reflexivity.
Qed.

(** Past the suffix check the script path plays no role: the session is
    always opened with [jira_server_params], so any two accepted paths, and
    any two ways of opening sessions that agree on those parameters, give
    the same outcome. *)
Theorem connect_ignores_script_path p p' open_session' st :
  (endswith p ".py" || endswith p ".js") = true ->
  (endswith p' ".py" || endswith p' ".js") = true ->
  open_session' jira_server_params = open_session jira_server_params ->
  connect_to_server open_session' list_tools p' st
  = connect_to_server open_session list_tools p st.
Proof.
  intros Hp Hp' Ho. unfold connect_to_server, try_except. cbv zeta.
  rewrite Hp, Hp', Ho. reflexivity.
Qed.


End ConnectFacts.

Lemma connect_rejects_other_scripts_witness :
  endswith "server.sh" ".py" = false /\ endswith "server.sh" ".js" = false /\
  connect_to_server (fun _ => None) (ListOk jira_tools) "server.sh" st0
  = (RExc (Exception_ "Failed to connect to server: Server script must be a .py or .js file"), st0).
Proof.
  split; [reflexivity|]. split; [reflexivity|].
  apply connect_rejects_other_scripts; reflexivity.
Defined.

Lemma connect_ignores_script_path_witness :
  connect_to_server (fun _ => None) (ListOk jira_tools) "tools/server.js" st0
  = connect_to_server (fun sp => if String.eqb (sp_command sp) "uv" then None else Some "no such file")
      (ListOk jira_tools) "path\jira-mcp\server.py" st0.
Proof.
  apply connect_ignores_script_path; reflexivity.
Defined.


(** ** Saving and loading conversations *)

Section Persistence.
Context `{Collaborators}.

Lemma serialize_items l : map serialize_item l = l.
Proof. induction l as [|j l IH]; simpl; [reflexivity | rewrite IH; reflexivity]. Qed.

Lemma serialize_content_idem c : serialize_content (serialize_content c) = serialize_content c.
Proof. destruct c; simpl; try reflexivity. rewrite !serialize_items. reflexivity. Qed.

Lemma serialize_conversation_idem conv sms :
  serialize_conversation conv = inr sms -> serialize_conversation sms = inr sms.
Proof.
  revert sms; induction conv as [|m conv IH]; intros sms Hs; simpl in Hs.
  - injection Hs as <-; reflexivity.
  - destruct (serialize_message m) as [e|sm] eqn:Em; [discriminate|].
    destruct (serialize_conversation conv) as [e|sms'] eqn:Ec; [discriminate|].
    injection Hs as <-. simpl. rewrite (IH _ eq_refl).
    destruct m as [| | | | |kvs]; simpl in Em; try discriminate.
    destruct (dget "role" kvs) as [r|]; [|discriminate].
    destruct (dget "content" kvs) as [c|]; [|discriminate].
    injection Em as <-. simpl. rewrite serialize_content_idem. reflexivity.
Qed.

Lemma serialize_conversation_fails conv m :
  In m conv -> (exists e, serialize_message m = inl e) ->
  exists e, serialize_conversation conv = inl e.
Proof.
  intros Hin [e0 He0]. induction conv as [|m' conv IH]; [destruct Hin|].
  simpl. destruct Hin as [<-|Hin].
  - rewrite He0. eexists; reflexivity.
  - destruct (serialize_message m'); [eexists; reflexivity|].
    destruct (IH Hin) as [e He]. rewrite He. eexists; reflexivity.
Qed.

Lemma dset_dset {A} (k : string) (v v' : A) d : dset k v (dset k v' d) = dset k v d.
Proof.
  induction d as [|[k' w] d IH]; simpl.
  - now rewrite String.eqb_refl.
  - destruct (String.eqb k k') eqn:E; simpl; rewrite E; [reflexivity | now rewrite IH].
Qed.

(** A conversation holding a message that is not a dict, or a dict
    without a [role] or a [content] key, cannot be saved:
    [log_conversation] raises before opening the file, and nothing
    changes. *)
Theorem log_conversation_refuses_bad_message conv m st :
  In m conv ->
  match m with
  | JObj kvs => dget "role" kvs = None \/ dget "content" kvs = None
  | _ => True
  end ->
  exists e, log_conversation conv st = (RExc e, st).
Proof.
  intros Hin Hbad.
  destruct (serialize_conversation_fails conv m Hin) as [e He].
  - destruct m as [| | | | |kvs]; simpl; try (eexists; reflexivity).
    destruct Hbad as [Hr|Hc].
    + rewrite Hr. eexists; reflexivity.
    + destruct (dget "role" kvs); [rewrite Hc|]; eexists; reflexivity.
  - exists e. unfold log_conversation. rewrite bind_get. rewrite He. reflexivity.
Qed.

(** Saving keeps one record per message, in the same order and with the
    same role. *)
Theorem serialize_keeps_roles conv sms :
  serialize_conversation conv = inr sms ->
  map role_of sms = map role_of conv.
Proof.
  revert sms; induction conv as [|m conv IH]; intros sms Hs; simpl in Hs.
  - injection Hs as <-; reflexivity.
  - destruct (serialize_message m) as [e|sm] eqn:Em; [discriminate|].
    destruct (serialize_conversation conv) as [e|sms'] eqn:Ec; [discriminate|].
    injection Hs as <-. simpl. rewrite (IH _ eq_refl). f_equal.
    destruct m as [| | | | |kvs]; simpl in Em; try discriminate.
    destruct (dget "role" kvs) as [r|] eqn:Er; [|discriminate].
    destruct (dget "content" kvs) as [c|]; [|discriminate].
    injection Em as <-. simpl. rewrite Er. reflexivity.
Qed.

(** Loading an id that has no file raises [FileNotFoundError], but only
    after the client's [conversation_id] has been switched to that id: its
    messages are kept, and every later save goes to the new id's file. *)
Theorem load_missing_switches_id cid st :
  dget (get_conversation_path cid) (fs st) = None ->
  load_conversation cid st
  = (RExc (FileNotFoundError ("Conversation " ++ cid ++ " not found.")),
     set_client (with_conversation_id cid (client st)) st).
Proof.
  intros Hnone. unfold load_conversation, bind, modify, get. cbv beta iota zeta.
  change (conversation_id (client (set_client (with_conversation_id cid (client st)) st)))
    with cid.
  change (fs (set_client (with_conversation_id cid (client st)) st)) with (fs st).
  rewrite Hnone. reflexivity.
Qed.

(** Saving, loading back the saved id and saving again rewrites the very
    same file: what is loaded is the saved (stripped) form of the messages,
    and that form is saved unchanged. *)
Theorem save_load_save_same_file st sms :
  io_faults st = [] ->
  serialize_conversation (messages (client st)) = inr sms ->
  let st1 := snd (log_self st) in
  let st2 := snd (load_conversation (conversation_id (client st)) st1) in
  messages (client st2) = sms /\
  fst (log_self st2) = ROk tt /\
  fs (snd (log_self st2)) = fs st1.
Proof.
  intros Hio Hs. cbv zeta.
  assert (Hg : good st) by (split; [exact Hio | unfold serializable; rewrite Hs; reflexivity]).
  rewrite (log_self_good st Hg). simpl snd.
  assert (Hfs1 : fs (persist st)
                 = dset (get_conversation_path (conversation_id (client st)))
                        (conversation_record (client st) sms) (fs st))
    by (unfold persist; rewrite Hs; reflexivity).
  set (st1 := persist st) in *.
  assert (Hc1 : client st1 = client st) by apply persist_client.
  assert (Hio1 : io_faults st1 = []) by (unfold st1; rewrite persist_io; exact Hio).
  set (cid := conversation_id (client st)).
  set (L0 := rebind_messages sms (set_client (with_conversation_id cid (client st1)) st1)).
  set (L := set_client (with_created_at (created_at (client st)) (client L0)) L0).
  assert (EL : load_conversation cid st1 = (ROk tt, L)).
  { unfold load_conversation, bind, modify, get. cbv beta iota zeta.
    change (conversation_id (client (set_client (with_conversation_id cid (client st1)) st1)))
      with cid.
    change (fs (set_client (with_conversation_id cid (client st1)) st1)) with (fs st1).
    rewrite Hfs1, dget_dset_same. reflexivity. }
  rewrite EL. simpl snd.
  assert (HgL : good L).
  { split; [exact Hio1|]. unfold serializable.
    change (messages (client L)) with sms.
    rewrite (serialize_conversation_idem _ _ Hs). reflexivity. }
  rewrite (log_self_good L HgL).
  split; [reflexivity|]. split; [reflexivity|].
  unfold persist. change (messages (client L)) with sms.
  rewrite (serialize_conversation_idem _ _ Hs).
  assert (Hid : conversation_id (client L) = cid) by reflexivity.
  assert (Hrec : conversation_record (client L) sms = conversation_record (client st) sms)
    by (unfold conversation_record; rewrite Hid; reflexivity).
  rewrite Hid, Hrec. change (fs L) with (fs st1).
  unfold set_fs, snd. cbn [fs]. rewrite Hfs1. apply dset_dset.
Qed.

End Persistence.

Lemma log_conversation_refuses_bad_message_witness :
  In (JObj [("content", JStr "no role")]) [user_msg "hi"; JObj [("content", JStr "no role")]] /\
  exists e, log_conversation [user_msg "hi"; JObj [("content", JStr "no role")]] st0 = (RExc e, st0).
Proof.
  split; [right; left; reflexivity|].
  apply (log_conversation_refuses_bad_message _ (JObj [("content", JStr "no role")]) st0);
    [right; left; reflexivity | left; reflexivity].
Defined.

Lemma serialize_keeps_roles_witness :
  exists sms,
    serialize_conversation sprint_transcript = inr sms /\
    map role_of sms = ["user"; "assistant"; "tool"; "assistant"].
Proof.
  eexists. split; [vm_compute; reflexivity|].
  rewrite (serialize_keeps_roles sprint_transcript _ ltac:(vm_compute; reflexivity)).
  vm_compute. reflexivity.
Defined.

Lemma load_missing_switches_id_witness :
  dget (get_conversation_path "old-chat") (fs st0) = None /\
  @load_conversation demo_env "old-chat" st0
  = (RExc (FileNotFoundError "Conversation old-chat not found."),
     set_client (with_conversation_id "old-chat" (client st0)) st0).
Proof.
  split; [reflexivity|]. apply load_missing_switches_id. reflexivity.
Defined.

Lemma save_load_save_same_file_witness :
  exists sms,
    serialize_conversation (messages (client st_saved)) = inr sms /\
    messages (client (snd (@load_conversation demo_env "b7e4c1d2" (snd (log_self st_saved))))) = sms.
Proof.
  eexists. split; [vm_compute; reflexivity|].
  exact (proj1 (@save_load_save_same_file demo_env st_saved _ eq_refl
                  ltac:(vm_compute; reflexivity))).
Defined.

(** ** Further properties of the HTTP layer *)

Section HttpMore.
Context `{Collaborators}.

(** What [POST /query] does before the turn: the id is [cid] (a fresh uuid
    when empty); the client's messages become the stored list of that id,
    shared with the store, or a fresh empty list. *)
Lemma http_process_query_setup fuel q cid st :
  let k := if String.eqb cid "" then new_uuid (uuid_ctr st) else cid in
  exists st1,
    messages (client st1)
      = match dget k (conversations st) with Some ms => ms | None => [] end /\
    alias st1 = match dget k (conversations st) with Some _ => Some k | None => None end /\
    conversations st1 = conversations st /\
    io_faults st1 = io_faults st /\
    trace st1 = trace st /\
    tools (client st1) = tools (client st) /\
    http_process_query fuel q cid st
    = match process_query fuel q st1 with
      | (ROk msgs, st2) =>
          (ROk (JObj [("messages", JList msgs); ("conversation_id", JStr k)]),
           set_alias (Some k)
             (set_conversations (dset k (messages (client st2)) (conversations st2)) st2))
      | (RExc e, st2) => (RExc (HTTPException 500 (exc_str e)), st2)
      | (RFuel, st2) => (RFuel, st2)
      end.
Proof.
  cbv zeta. unfold http_process_query, http500, convo_id_of.
  destruct (String.eqb cid "");
    unfold fresh_uuid, try_except, bind, ret, get, modify; cbv beta iota zeta;
    [ change (conversations (set_uuid_ctr (S (uuid_ctr st)) st)) with (conversations st);
      destruct (dget (new_uuid (uuid_ctr st)) (conversations st)) as [ms|]
    | destruct (dget cid (conversations st)) as [ms|] ];
    match goal with |- context [process_query fuel q ?s] => exists s end;
    (split; [|split; [|split; [|split; [|split; [|split]]]]]);
    try reflexivity;
    destruct (process_query _ _ _) as [[|e|] st2]; reflexivity.
Qed.


(** When all writes succeed and the stored conversation can be saved, the
    first request a [POST /query] sends to the model is the stored history
    of the id (empty for an unknown id) followed by the new user message,
    with the client's tools. *)
Theorem query_first_request fuel q cid st :
  let k := if String.eqb cid "" then new_uuid (uuid_ctr st) else cid in
  let old := match dget k (conversations st) with Some ms => ms | None => [] end in
  io_faults st = [] ->
  serializable old = true ->
  exists rest,
    trace (snd (http_process_query (S fuel) q cid st))
    = trace st ++ EvLLM (old ++ [user_msg q]) (tools (client st)) :: rest.
Proof.
  intros k old Hio Hs.
  destruct (http_process_query_setup (S fuel) q cid st)
    as (st1 & Hm1 & _ & _ & Hio1 & Ht1 & Htl1 & E).
  fold k in Hm1, E. fold old in Hm1.
  assert (Hg1 : good st1) by (split; [rewrite Hio1; exact Hio | rewrite Hm1; exact Hs]).
  assert (Htr : trace (snd (http_process_query (S fuel) q cid st))
                = trace (snd (process_query (S fuel) q st1)))
    by (rewrite E; destruct (process_query (S fuel) q st1) as [[|e|] st2]; reflexivity).
  rewrite Htr. unfold process_query. cbv zeta.
  rewrite (append_log_good _ _ _ Hg1 (serializable_user_msg q)).
  destruct (turn_loop_calls_llm fuel [system_msg; user_msg q]
              (persist (append_messages_st [user_msg q] st1))) as [rest Hrest].
  exists rest. rewrite Hrest.
  rewrite persist_trace, persist_client, append_messages_trace, append_messages_client.
  simpl. rewrite Hm1, Ht1, Htl1. reflexivity.
Qed.











Lemma dget_not_in {A} k (d : list (string * A)) : ~ In k (map fst d) -> dget k d = None.
Proof.
  induction d as [|[k' v'] d IH]; intros Hn; simpl; [reflexivity|].
  destruct (String.eqb k k') eqn:E.
  - apply String.eqb_eq in E. subst. exfalso. apply Hn. left. reflexivity.
  - apply IH. intros Hin. apply Hn. right. exact Hin.
Qed.

Lemma dget_ddel_other {A} a k (d : list (string * A)) : a <> k -> dget a (ddel k d) = dget a d.
Proof.
  intros Hne. induction d as [|[k' v'] d IH]; simpl; [reflexivity|].
  destruct (String.eqb k k') eqn:E; simpl.
  - apply String.eqb_eq in E. subst k'.
    destruct (String.eqb a k) eqn:E'; [apply String.eqb_eq in E'; contradiction | reflexivity].
  - rewrite IH. reflexivity.
Qed.

Lemma not_in_ddel {A} k (d : list (string * A)) :
  NoDup (map fst d) -> ~ In k (map fst (ddel k d)).
Proof.
  induction d as [|[k' v'] d IH]; intros Hnd; simpl; [tauto|].
  inversion Hnd as [|x l Hx Hnd' Hxl]; subst.
  destruct (String.eqb k k') eqn:E.
  - apply String.eqb_eq in E. subst. exact Hx.
  - simpl. intros [Heq|Hin].
    + subst. rewrite String.eqb_refl in E. discriminate.
    + exact (IH Hnd' Hin).
Qed.

(** After a successful delete (the store being a dict, its ids are
    distinct), the id is no longer listed, [GET /conversations/{id}] fails
    with 404, and the other conversations are as before. *)
Theorem delete_then_get_not_found cid st :
  NoDup (map fst (conversations st)) ->
  dget cid (conversations st) <> None ->
  let st' := snd (delete_conversation_post cid st) in
  get_conversation cid st' = (RExc (HTTPException 404 "Conversation not found"), st') /\
  ~ In cid (map fst (conversations st')) /\
  (forall a, a <> cid -> dget a (conversations st') = dget a (conversations st)).
Proof.
  intros Hnd Hin st'.
  assert (Hc : conversations st' = ddel cid (conversations st)).
  { unfold st', delete_conversation_post. rewrite bind_get.
    destruct (dget cid (conversations st)); [reflexivity | contradiction]. }
  split; [|split].
  - unfold get_conversation. rewrite bind_get, Hc.
    rewrite (dget_not_in cid _ (not_in_ddel cid _ Hnd)). reflexivity.
  - rewrite Hc. apply not_in_ddel, Hnd.
  - intros a Ha. rewrite Hc. apply dget_ddel_other, Ha.
Qed.

(** [POST /tool] makes exactly one tool call and records nothing in any
    conversation; a failure of the tool reaches the caller as HTTP 500 with
    the message wrapped once in [Failed to call tool: ]. *)
Theorem post_tool_outcome name args st :
  http_call_tool name args st
  = match session_call_tool name args with
    | ToolOk r => (ROk (JObj [("result", encode_result r)]), add_event (EvTool name args) st)
    | ToolRaise e =>
        (RExc (HTTPException 500 ("Failed to call tool: " ++ e)), add_event (EvTool name args) st)
    end.
Proof.
  unfold http_call_tool, http500, client_call_tool, session_call, try_except, bind, ret, raise.
  destruct (session_call_tool name args); reflexivity.
Qed.

(** [POST /file] reads [filename], then [content], from the request's file
    dict: a missing one fails with HTTP 500 whose detail is the quoted key,
    before any tool call and with the store unchanged; with both present the
    upload tool is called once, with [type] defaulting to
    [application/octet-stream]. *)
Theorem upload_arguments file cid st :
  let st' := snd (handle_file_upload file cid st) in
  match dget "filename" file, dget "content" file with
  | None, _ =>
      fst (handle_file_upload file cid st) = RExc (HTTPException 500 "'filename'") /\
      trace st' = trace st /\ conversations st' = conversations st
  | Some _, None =>
      fst (handle_file_upload file cid st) = RExc (HTTPException 500 "'content'") /\
      trace st' = trace st /\ conversations st' = conversations st
  | Some f, Some c =>
      trace st' = trace st ++
        [EvTool "read_uploaded_file"
           (JObj [("filename", f); ("content", c);
                  ("type", match dget "type" file with
                           | Some t => t
                           | None => JStr "application/octet-stream"
                           end)])]
  end.
Proof.
  cbv zeta.
  unfold handle_file_upload, http500, convo_id_of, fresh_uuid, item,
    client_call_tool, session_call, try_except, bind, ret, raise, get, modify.
  cbv beta iota zeta.
  destruct (String.eqb cid "");
    (destruct (dget "filename" file) as [fn|];
     [destruct (dget "content" file) as [ct|];
      [destruct (session_call_tool _ _) as [r|msg];
       [destruct (json_dumps_result r) as [d|]|]|]|]); cbv beta iota;
    cbn [fst snd]; rewrite ?extend_trace;
    first [ reflexivity | split; [reflexivity | split; reflexivity] ].
Qed.
End HttpMore.


Lemma query_first_request_witness :
  exists rest,
    trace (snd (@http_process_query demo_env 5 sprint_query "a1" st_one))
    = EvLLM [user_msg "hi"; user_msg sprint_query] [] :: rest.
Proof.
  exact (@query_first_request demo_env 4 sprint_query "a1" st_one eq_refl
           ltac:(vm_compute; reflexivity)).
Defined.


Lemma delete_then_get_not_found_witness :
  get_conversation "a1" (snd (delete_conversation_post "a1" st_one))
  = (RExc (HTTPException 404 "Conversation not found"), snd (delete_conversation_post "a1" st_one)).
Proof.
  apply (delete_then_get_not_found "a1" st_one).
  - repeat constructor. simpl. tauto.
  - discriminate.
Defined.
